(** * flask-gevent-tutorial: the three request handlers and what they do

    The repository holds three single-route HTTP handlers:

    - [slow_api/api.py], [handle]: the Delay Service (aiohttp);
    - [flask_app/app.py], [index]: the Front Service calling the Delay
      Service (Flask);
    - [flask_app/db.py], [index]: the Front Service that also queries
      PostgreSQL (Flask + psycopg2).

    ([flask_app/pywsgi.py] only starts the server of the Front Service.)

    Each handler is embedded as a program over the library calls it makes
    ([requests.get], [psycopg2.connect], [asyncio.sleep], ...).  The Python
    built-ins the handlers apply to the [delay] query parameter ([int],
    [float], [or], [/], [str]) are modelled on values: integers as [Z],
    floats as IEEE binary64 numbers ([spec_float] with 53 bits of precision),
    strings as [string], whose characters stand for the code points 0..255. *)

From Stdlib Require Import ZArith NArith QArith Lqa Lia List String Ascii Bool.
From Stdlib Require Import Floats.SpecFloat DecimalString DecimalPos.
Import ListNotations.

Close Scope Q_scope.
Local Open Scope string_scope.

(** ** Python values and exceptions *)

(** The exceptions a handler can leave unhandled.  [ValueError] and
    [OverflowError] come from the built-in casts; [LibraryError] stands for
    whatever a library call raises (a refused connection, a failed query). *)
Inductive exn : Type :=
| ValueError
| OverflowError
| LibraryError (what : string).

(** [result A]: a Python expression either evaluates to a value or raises. *)
Inductive result (A : Type) : Type :=
| Ok (a : A)
| Err (e : exn).
Arguments Ok {A} a.
Arguments Err {A} e.

(** Python floats are IEEE 754 binary64 numbers. *)
Definition float : Type := spec_float.
Definition prec : Z := 53.
Definition emax : Z := 1024.

(** An argument of [int(...)] or [float(...)] in the handlers is either a
    string taken from the query or the integer default. *)
Inductive pyval : Type :=
| PStr (s : string)
| PInt (z : Z).

(** ** Characters *)

(** The whitespace [int] and [float] skip around a number, among the code
    points below 256: tab, line feed, vertical tab, form feed, carriage
    return, space, next line (133) and no-break space (160). *)
Definition is_space (c : ascii) : bool :=
  let n := N_of_ascii c in
  ((9 <=? n) && (n <=? 13) || (n =? 32) || (n =? 133) || (n =? 160))%N.

(** The value of a decimal digit ['0'..'9']. *)
Definition digit_val (c : ascii) : option N :=
  let n := N_of_ascii c in
  if ((48 <=? n) && (n <=? 57))%N then Some (n - 48)%N else None.

(** ASCII lower-casing, as the case-insensitive match of [inf] and [nan] needs. *)
Definition lower_char (c : ascii) : ascii :=
  let n := N_of_ascii c in
  if ((65 <=? n) && (n <=? 90))%N then ascii_of_N (n + 32) else c.

Fixpoint lower (s : string) : string :=
  match s with
  | EmptyString => EmptyString
  | String c s' => String (lower_char c) (lower s')
  end.

(** ** Lexing numbers *)

Fixpoint lstrip (s : string) : string :=
  match s with
  | EmptyString => EmptyString
  | String c s' => if is_space c then lstrip s' else s
  end.

Fixpoint rstrip (s : string) : string :=
  match s with
  | EmptyString => EmptyString
  | String c s' =>
      match rstrip s' with
      | EmptyString => if is_space c then EmptyString else String c EmptyString
      | r => String c r
      end
  end.

(** [str.strip()]: both casts ignore surrounding whitespace. *)
Definition strip (s : string) : string := rstrip (lstrip s).

(** An optional sign. *)
Definition sign_of (s : string) : bool * string :=
  match s with
  | String "-" s' => (true, s')
  | String "+" s' => (false, s')
  | _ => (false, s)
  end.

(** [digit_run acc len s] continues a run of digits that has already read
    [len] digits of value [acc]: it reads digits, and single underscores
    that stand between two digits, as long as it can.  It returns the value,
    the number of digits and the unread rest. *)
Fixpoint digit_run (acc : N) (len : nat) (s : string) : N * nat * string :=
  match s with
  | EmptyString => (acc, len, s)
  | String c s' =>
      match digit_val c with
      | Some d => digit_run (acc * 10 + d) (S len) s'
      | None =>
          if Ascii.eqb c "_" then
            match s' with
            | EmptyString => (acc, len, s)
            | String c' s'' =>
                match digit_val c' with
                | Some d => digit_run (acc * 10 + d) (S len) s''
                | None => (acc, len, s)
                end
            end
          else (acc, len, s)
      end
  end.

(** A non-empty run of digits, continuing the value [acc]. *)
Definition digits_from (acc : N) (s : string) : option (N * nat * string) :=
  match s with
  | EmptyString => None
  | String c s' =>
      match digit_val c with
      | Some d => Some (digit_run (acc * 10 + d) 1 s')
      | None => None
      end
  end.

(** ** [int(str)] *)

(** The base-10 integer literal [int] accepts: whitespace, an optional sign,
    digits with single underscores between them, whitespace.  (The limit
    recent interpreters put on the number of digits is not modelled.) *)
Definition int_literal (s : string) : option (bool * N) :=
  let (neg, body) := sign_of (strip s) in
  match digits_from 0 body with
  | Some (n, _, EmptyString) => Some (neg, n)
  | _ => None
  end.

Definition signed (neg : bool) (n : N) : Z :=
  if neg then (- Z.of_N n)%Z else Z.of_N n.

(** ** [float(str)] *)

(** What a string accepted by [float] denotes, before rounding:
    [(-1)^neg * m * 10^e], an infinity or a NaN. *)
Inductive float_lit : Type :=
| LitNum (neg : bool) (m : N) (e : Z)
| LitInf (neg : bool)
| LitNan.

(** The digits of the mantissa: the value read with the point removed, the
    number of digits after the point, and the rest.  At least one digit is
    required, before or after the point. *)
Definition mantissa (s : string) : option (N * nat * string) :=
  match digits_from 0 s with
  | Some (ip, _, String "." r) =>
      match digits_from ip r with
      | Some (m, fl, r') => Some (m, fl, r')
      | None => Some (ip, O, r)
      end
  | Some (ip, _, r) => Some (ip, O, r)
  | None =>
      match s with
      | String "." r =>
          match digits_from 0 r with
          | Some (m, fl, r') => Some (m, fl, r')
          | None => None
          end
      | _ => None
      end
  end.

(** The optional exponent part, up to the end of the string. *)
Definition exponent (s : string) : option Z :=
  match s with
  | EmptyString => Some 0%Z
  | String c r =>
      if Ascii.eqb (lower_char c) "e" then
        let (neg, r') := sign_of r in
        match digits_from 0 r' with
        | Some (n, _, EmptyString) => Some (signed neg n)
        | _ => None
        end
      else None
  end.

Definition decimal_literal (neg : bool) (s : string) : option float_lit :=
  match mantissa s with
  | Some (m, fl, rest) =>
      match exponent rest with
      | Some e => Some (LitNum neg m (e - Z.of_nat fl))
      | None => None
      end
  | None => None
  end.

Definition special_literal (neg : bool) (s : string) : option float_lit :=
  let l := lower s in
  if (l =? "inf") || (l =? "infinity") then Some (LitInf neg)
  else if l =? "nan" then Some LitNan
  else None.

(** The literal [float] accepts: whitespace, an optional sign, then [inf],
    [infinity] or [nan] in any case, or a decimal number with an optional
    fraction and exponent, whitespace. *)
Definition float_literal (s : string) : option float_lit :=
  let (neg, body) := sign_of (strip s) in
  match special_literal neg body with
  | Some l => Some l
  | None => decimal_literal neg body
  end.

(** Rounding [(-1)^neg * m * 10^e] to the nearest binary64 number, ties to
    even; values too large become infinities. *)
Definition round_decimal (neg : bool) (m : N) (e : Z) : float :=
  match m with
  | N0 => S754_zero neg
  | Npos p =>
      match e with
      | Zneg k =>
          SFdiv prec emax (S754_finite neg p 0) (S754_finite false (10 ^ k) 0)
      | _ => binary_normalize prec emax (cond_Zopp neg (Zpos p * 10 ^ e)) 0 neg
      end
  end.

Definition float_of_lit (l : float_lit) : float :=
  match l with
  | LitNum neg m e => round_decimal neg m e
  | LitInf neg => S754_infinity neg
  | LitNan => S754_nan
  end.

(** ** The built-ins the handlers use *)

(** [x or d] where [x] is [None] or a string and [d] an integer: [None] and
    the empty string are falsy. *)
Definition py_or (x : option string) (d : Z) : pyval :=
  match x with
  | None => PInt d
  | Some EmptyString => PInt d
  | Some s => PStr s
  end.

(** [int(v)] *)
Definition py_int (v : pyval) : result Z :=
  match v with
  | PInt z => Ok z
  | PStr s =>
      match int_literal s with
      | Some (neg, n) => Ok (signed neg n)
      | None => Err ValueError
      end
  end.

(** [float(v)]: an integer too large for a float raises [OverflowError]. *)
Definition py_float (v : pyval) : result float :=
  match v with
  | PInt z =>
      match binary_normalize prec emax z 0 false with
      | S754_infinity _ => Err OverflowError
      | f => Ok f
      end
  | PStr s =>
      match float_literal s with
      | Some l => Ok (float_of_lit l)
      | None => Err ValueError
      end
  end.

(** [x / 2] on a float [x]: division by the float [2.0]. *)
Definition float_two : float := Eval vm_compute in binary_normalize prec emax 2 0 false.
Definition halve (x : float) : float := SFdiv prec emax x float_two.

(** The real number a finite float stands for. *)
Definition Qof (x : float) : option Q :=
  match x with
  | S754_zero _ => Some 0%Q
  | S754_finite neg m e =>
      let v := match e with
               | Zneg k => Qred (Qmake (Zpos m) (2 ^ k))
               | _ => inject_Z (Zpos m * 2 ^ e)
               end in
      Some (if neg then Qopp v else v)
  | _ => None
  end.

(** ** [str(int)] and [str(float)], as an f-string formats them *)

Definition str_int (z : Z) : string :=
  DecimalString.NilZero.string_of_int (Z.to_int z).

Definition float_eqb (x y : float) : bool :=
  match x, y with
  | S754_zero a, S754_zero b => Bool.eqb a b
  | S754_infinity a, S754_infinity b => Bool.eqb a b
  | S754_nan, S754_nan => true
  | S754_finite a m e, S754_finite b m' e' =>
      Bool.eqb a b && Pos.eqb m m' && Z.eqb e e'
  | _, _ => false
  end.

(** A positive finite float [m * 2^e] as a fraction. *)
Definition fraction_of (m : positive) (e : Z) : Z * Z :=
  match e with
  | Zneg k => (Zpos m, Zpos (2 ^ k))
  | _ => (Zpos m * 2 ^ e, 1)%Z
  end.

(** The fraction [num/den] divided by [10^p]. *)
Definition scaled (num den p : Z) : Z * Z :=
  match p with
  | Zneg q => (num * Zpos (10 ^ q), den)
  | _ => (num, den * 10 ^ p)
  end%Z.

Definition nb_decimal_digits (n : Z) : Z :=
  Z.of_nat (Decimal.nb_digits (N.to_uint (Z.to_N n))).

Fixpoint decpt_below_one (fuel : nat) (num den k : Z) : Z :=
  match fuel with
  | O => k
  | S fuel' =>
      if (den <=? num * 10)%Z then k
      else decpt_below_one fuel' (num * 10)%Z den (k - 1)%Z
  end.

(** The position of the decimal point of [num/den > 0]: the [k] with
    [10^(k-1) <= num/den < 10^k]. *)
Definition decpt (num den : Z) : Z :=
  if (den <=? num)%Z then nb_decimal_digits (num / den)
  else decpt_below_one 400 num den 0.

(** The decimal [d * 10^p] with [n] digits that is nearest to [x = num/den]
    among those [float] reads back as [x], if there is one. *)
Definition candidate (x : float) (num den k n : Z) : option (Z * Z) :=
  let p := (k - n)%Z in
  let (a, b) := scaled num den p in
  let q := (a / b)%Z in
  let r := (a mod b)%Z in
  let lo := float_eqb (round_decimal false (Z.to_N q) p) x in
  let hi := float_eqb (round_decimal false (Z.to_N (q + 1)) p) x in
  match lo, hi with
  | true, true =>
      Some (if ((2 * r <? b) || (2 * r =? b) && Z.even q)%Z then q else (q + 1)%Z, p)
  | true, false => Some (q, p)
  | false, true => Some ((q + 1)%Z, p)
  | false, false => None
  end.

Fixpoint shortest (fuel : nat) (x : float) (num den k n : Z) : Z * Z :=
  match fuel with
  | O => (0, 0)%Z
  | S fuel' =>
      match candidate x num den k n with
      | Some c => c
      | None => shortest fuel' x num den k (n + 1)%Z
      end
  end.

Fixpoint zeros (n : nat) : string :=
  match n with
  | O => EmptyString
  | S n' => String "0" (zeros n')
  end.

(** The layout of [repr]: digits with a point, or with an exponent of at
    least two digits when the point would be far from the digits. *)
Definition layout (digits : string) (point : Z) : string :=
  let nd := Z.of_nat (String.length digits) in
  if ((point <=? -4) || (16 <? point))%Z then
    let e := (point - 1)%Z in
    let mant :=
      match digits with
      | String c EmptyString => digits
      | String c rest => String c ("." ++ rest)
      | EmptyString => digits
      end in
    let ee := str_int (Z.abs e) in
    mant ++ "e" ++ (if (e <? 0)%Z then "-" else "+")
         ++ (if (Z.abs e <? 10)%Z then "0" ++ ee else ee)
  else if (point <=? 0)%Z then
    "0." ++ zeros (Z.to_nat (- point)) ++ digits
  else if (nd <=? point)%Z then
    digits ++ zeros (Z.to_nat (point - nd)) ++ ".0"
  else
    substring 0 (Z.to_nat point) digits ++ "."
      ++ substring (Z.to_nat point) (Z.to_nat (nd - point)) digits.

(** [str(x)] for a float: the shortest decimal that [float] reads back as
    [x]. *)
Definition str_float (x : float) : string :=
  match x with
  | S754_nan => "nan"
  | S754_infinity neg => if neg then "-inf" else "inf"
  | S754_zero neg => if neg then "-0.0" else "0.0"
  | S754_finite neg m e =>
      let (num, den) := fraction_of m e in
      let k := decpt num den in
      let (d, p) := shortest 17 (S754_finite false m e) num den k 1 in
      let u := N.to_uint (Z.to_N d) in
      let (sig, _) := Decimal.nztail u in
      let digits := DecimalString.NilEmpty.string_of_uint sig in
      let point := (Z.of_nat (Decimal.nb_digits u) + p)%Z in
      (if neg then "-" else "") ++ layout digits point
  end.

(** ** The request *)

(** The query string of a request, as the list of its [key=value] items. *)
Definition query : Type := list (string * string).

(** [request.args.get(key)] (Flask) and [request.query.get(key)] (aiohttp):
    the first value of [key], [None] when the key is absent. *)
Fixpoint get (q : query) (key : string) : option string :=
  match q with
  | [] => None
  | (k, v) :: q' => if k =? key then Some v else get q' key
  end.

(** ** Library calls *)

Definition connection : Type := nat.
Definition cursor : Type := nat.

(** What [requests.get] returns; the handlers read [text] only. *)
Record response : Type := { status_code : nat; text : string }.

(** The list [cur.fetchall()] returns; the handler only formats it. *)
Record rows : Type := { str_rows : string }.

(** The calls a handler can make on the libraries it imports.  [Close]
    ([connection.close()]) is part of psycopg2's interface; whether a handler
    uses it is a property of the handler. *)
Inductive action : Type :=
| Connect (user password host : string)
| Get (url : string)
| Cursor (conn : connection)
| Execute (cur : cursor) (sql : string) (params : list float)
| Fetchall (cur : cursor)
| Close (conn : connection)
| Sleep (delay : float).

(** The type of what a call returns. *)
Definition answer (a : action) : Type :=
  match a with
  | Connect _ _ _ => connection
  | Get _ => response
  | Cursor _ => cursor
  | Execute _ _ _ => unit
  | Fetchall _ => rows
  | Close _ => unit
  | Sleep _ => unit
  end.

(** A handler body: it returns, raises, or makes a call and goes on with what
    the call returned.  An exception raised by a call is not caught by any
    handler of the repository, so it ends the program. *)
Inductive prog (R : Type) : Type :=
| Ret (r : R)
| Raise (e : exn)
| Call (a : action) (k : answer a -> prog R).
Arguments Ret {R} r.
Arguments Raise {R} e.
Arguments Call {R} a k.

Fixpoint bind {A B : Type} (p : prog A) (f : A -> prog B) : prog B :=
  match p with
  | Ret a => f a
  | Raise e => Raise e
  | Call a k => Call a (fun x => bind (k x) f)
  end.

Notation "x <- p ;; q" := (bind p (fun x => q))
  (at level 61, p at next level, right associativity).

(** A built-in that may raise, used as a statement. *)
Definition cast {A : Type} (r : result A) : prog A :=
  match r with
  | Ok a => Ret a
  | Err e => Raise e
  end.

Definition psycopg2_connect (user password host : string) : prog connection :=
  Call (Connect user password host) Ret.
Definition requests_get (url : string) : prog response := Call (Get url) Ret.
Definition conn_cursor (conn : connection) : prog cursor := Call (Cursor conn) Ret.
Definition cur_execute (cur : cursor) (sql : string) (params : list float) : prog unit :=
  Call (Execute cur sql params) Ret.
Definition cur_fetchall (cur : cursor) : prog rows := Call (Fetchall cur) Ret.
Definition asyncio_sleep (delay : float) : prog unit := Call (Sleep delay) Ret.

(** ** The handlers *)

(** [slow_api/api.py] *)
Module Api.

(** An [aiohttp.web.Response]; its status defaults to 200. *)
Record web_response : Type := { status : nat; body : string }.

Definition web_Response (text : string) : web_response :=
  {| status := 200; body := text |}.

Definition handle (request : query) : prog web_response :=
  delay <- cast (py_float (py_or (get request "delay") 1)) ;;
  _ <- asyncio_sleep delay ;;
  Ret (web_Response "slow api response").

End Api.

(** [flask_app/app.py] *)
Module App.
Section Env.

(** [os.environ['PORT_API']], read when the module is loaded. *)
Variable api_port : string.

Definition api_url : string := "http://slow_api:" ++ api_port ++ "/".

Definition index (request : query) : prog string :=
  delay <- cast (py_int (py_or (get request "delay") 1)) ;;
  resp <- requests_get (api_url ++ "?delay=" ++ str_int delay) ;;
  Ret ("Hi there! " ++ text resp).

End Env.
End App.

(** [flask_app/db.py] *)
Module Db.
Section Env.

(** [os.environ['PORT_API']], read when the module is loaded. *)
Variable api_port : string.

Definition api_url : string := "http://slow_api:" ++ api_port ++ "/".

Definition index (request : query) : prog string :=
  conn <- psycopg2_connect "example" "example" "postgres" ;;
  delay <- cast (py_float (py_or (get request "delay") 1)) ;;
  resp <- requests_get (api_url ++ "?delay=" ++ str_float (halve delay)) ;;
  cur <- conn_cursor conn ;;
  _ <- cur_execute cur "SELECT pg_sleep(%s), NOW()" [halve delay] ;;
  fetched <- cur_fetchall cur ;;
  Ret ("Hi there! " ++ text resp ++ " " ++ str_rows fetched).

End Env.
End Db.

(** [flask_app/pywsgi.py] *)
Module Pywsgi.

(** What the script can raise: the [KeyError] of [os.environ[...]] for a
    variable that is not set, what the cast of the port raises, and what
    [serve_forever] raises when the server binds its socket. *)
Inductive startup_error : Type :=
| KeyError (key : string)
| CastError (e : exn)
| ServeError (e : exn).

Inductive startup (A : Type) : Type :=
| Started (a : A)
| Failed (e : startup_error).
Arguments Started {A} a.
Arguments Failed {A} e.

(** [os.environ[key]], the environment given as the list of its items. *)
Definition environ_item (environ : list (string * string)) (key : string)
  : startup string :=
  match get environ key with
  | Some v => Started v
  | None => Failed (KeyError key)
  end.

(** The [WSGIServer] the script serves forever: the address it binds (with
    the port 0 the operating system picks the port to listen on) and the
    view of the application it serves. *)
Record wsgi_server : Type :=
  { address : string * Z; application : query -> prog string }.

(** The ports a socket can be bound to. *)
Definition port_in_range (port : Z) : bool :=
  ((0 <=? port) && (port <=? 65535))%Z.

(** The script: [from app import app] runs the module [app.py], which reads
    [PORT_API]; then the server is made for the port [int] reads from
    [PORT_APP]; then [serve_forever] binds the address: binding raises
    [OverflowError] for a port outside 0..65535, and otherwise does what the
    operating system answers, [os_bind] ([None]: the address is bound, or
    the exception raised, as when the port is taken). *)
Definition main (environ : list (string * string))
  (os_bind : string * Z -> option exn) : startup wsgi_server :=
  match environ_item environ "PORT_API" with
  | Failed e => Failed e
  | Started api_port =>
      match environ_item environ "PORT_APP" with
      | Failed e => Failed e
      | Started port_app =>
          match py_int (PStr port_app) with
          | Err e => Failed (CastError e)
          | Ok port =>
              if port_in_range port then
                match os_bind ("0.0.0.0", port) with
                | Some e => Failed (ServeError e)
                | None =>
                    Started {| address := ("0.0.0.0", port);
                               application := App.index api_port |}
                end
              else Failed (ServeError OverflowError)
          end
      end
  end.

End Pywsgi.

(** ** Running a handler *)

(** What a call does in the world one request runs in: it returns after some
    time, raises after some time, or never comes back.  No handler makes the
    same call twice, so a function of the call covers every behaviour of the
    libraries during one request. *)
Inductive reply (X : Type) : Type :=
| Returns (dt : Q) (x : X)
| Throws (dt : Q) (e : exn)
| Hangs.
Arguments Returns {X} dt x.
Arguments Throws {X} dt e.
Arguments Hangs {X}.

Definition world : Type := forall a : action, reply (answer a).

(** How a request ends. *)
Inductive ending (R : Type) : Type :=
| Responded (r : R)
| Unhandled (e : exn)
| Hung.
Arguments Responded {R} r.
Arguments Unhandled {R} e.
Arguments Hung {R}.

(** One call of a run, with the time it took ([None]: it never came back). *)
Record entry : Type := { call : action; took : option Q }.

(** The calls are made one after the other: the next one is issued when the
    previous one has returned. *)
Fixpoint run {R : Type} (w : world) (p : prog R) : list entry * ending R :=
  match p with
  | Ret r => ([], Responded r)
  | Raise e => ([], Unhandled e)
  | Call a k =>
      match w a with
      | Returns dt x =>
          let (tr, e) := run w (k x) in
          ({| call := a; took := Some dt |} :: tr, e)
      | Throws dt e => ([{| call := a; took := Some dt |}], Unhandled e)
      | Hangs => ([{| call := a; took := None |}], Hung)
      end
  end.

Definition calls (tr : list entry) : list action := map call tr.

(** The time from the receipt of the request to the end of the run. *)
Fixpoint elapsed (tr : list entry) : option Q :=
  match tr with
  | [] => Some 0%Q
  | e :: tr' =>
      match took e, elapsed tr' with
      | Some dt, Some t => Some (dt + t)%Q
      | _, _ => None
      end
  end.

(** The time at which the first call satisfying [f] is issued, and the time
    at which it has returned, on a clock that shows [now] at the head of the
    trace. *)
Fixpoint issued_at (f : action -> bool) (now : Q) (tr : list entry) : option Q :=
  match tr with
  | [] => None
  | e :: tr' =>
      if f (call e) then Some now
      else match took e with
           | Some dt => issued_at f (now + dt)%Q tr'
           | None => None
           end
  end.

Fixpoint returned_at (f : action -> bool) (now : Q) (tr : list entry) : option Q :=
  match tr with
  | [] => None
  | e :: tr' =>
      match took e with
      | Some dt => if f (call e) then Some (now + dt)%Q
                   else returned_at f (now + dt)%Q tr'
      | None => None
      end
  end.

Definition is_get (a : action) : bool :=
  match a with Get _ => true | _ => false end.
Definition is_execute (a : action) : bool :=
  match a with Execute _ _ _ => true | _ => false end.
Definition is_close (a : action) : bool :=
  match a with Close _ => true | _ => false end.

(** Two calls are in flight together when the second is issued before the
    first has returned. *)
Definition in_flight_together (f g : action -> bool) (tr : list entry) : Prop :=
  match issued_at g 0 tr, returned_at f 0 tr with
  | Some tg, Some tf => (tg < tf)%Q
  | _, _ => False
  end.

(** What the client receives.  Flask answers 200 with a string the view
    returns; Flask and aiohttp both answer 500 when the handler lets an
    exception escape. *)
Definition flask_status (e : ending string) : option nat :=
  match e with
  | Responded _ => Some 200
  | Unhandled _ => Some 500
  | Hung => None
  end.

Definition aiohttp_status (e : ending Api.web_response) : option nat :=
  match e with
  | Responded r => Some (Api.status r)
  | Unhandled _ => Some 500
  | Hung => None
  end.

Definition client_error (s : option nat) : bool :=
  match s with
  | Some n => (400 <=? n)%nat && (n <? 500)%nat
  | None => false
  end.

(** ** The handlers once [delay] is known

    The part of each handler below the line that computes [delay]. *)

Definition handle_with (delay : float) : prog Api.web_response :=
  _ <- asyncio_sleep delay ;;
  Ret (Api.web_Response "slow api response").

Definition app_index_with (api_port : string) (delay : Z) : prog string :=
  resp <- requests_get (App.api_url api_port ++ "?delay=" ++ str_int delay) ;;
  Ret ("Hi there! " ++ text resp).

Definition db_index_with (api_port : string) (conn : connection) (delay : float)
  : prog string :=
  resp <- requests_get (Db.api_url api_port ++ "?delay=" ++ str_float (halve delay)) ;;
  cur <- conn_cursor conn ;;
  _ <- cur_execute cur "SELECT pg_sleep(%s), NOW()" [halve delay] ;;
  fetched <- cur_fetchall cur ;;
  Ret ("Hi there! " ++ text resp ++ " " ++ str_rows fetched).

(** The float [1.0] and the float [0.5]. *)
Definition float_one : float := Eval vm_compute in binary_normalize prec emax 1 0 false.
Definition float_half : float := Eval vm_compute in halve float_one.

(** ** A deployment to run the handlers in

    The three services wired as the repository's compose file wires them,
    with an exact clock and no network latency: the Delay Service is the
    handler [Api.handle] itself, and PostgreSQL executes [pg_sleep]. *)

(** A timer on an exact clock: a non-positive delay returns at once, an
    infinite one never does.  (What asyncio does with a NaN depends on its
    version; it raises [ValueError] since CPython 3.13.) *)
Definition timer_reply (d : float) : reply unit :=
  match d with
  | S754_nan => Throws 0 ValueError
  | S754_infinity neg => if neg then Returns 0 tt else Hangs
  | _ =>
      match Qof d with
      | Some q => Returns (if Qle_bool 0 q then q else 0%Q) tt
      | None => Hangs
      end
  end.

(** The text of [s] after the first occurrence of [pat]. *)
Fixpoint after (pat s : string) : option string :=
  if prefix pat s then
    Some (substring (String.length pat) (String.length s - String.length pat) s)
  else
    match s with
    | EmptyString => None
    | String _ s' => after pat s'
    end.

(** In a query string a [+] stands for a space. *)
Fixpoint plus_as_space (s : string) : string :=
  match s with
  | EmptyString => EmptyString
  | String c s' => String (if Ascii.eqb c "+" then " "%char else c) (plus_as_space s')
  end.

(** The query aiohttp reads from the URL of a call a handler makes: the
    value after [?delay=], decoded.  (The handlers send no [%] and no [&].) *)
Definition query_of_url (url : string) : query :=
  match after "?delay=" url with
  | Some v => [("delay", plus_as_space v)]
  | None => []
  end.

(** A process that only has a clock. *)
Definition timer : world :=
  fun a =>
    match a return reply (answer a) with
    | Sleep d => timer_reply d
    | Connect _ _ _ => Throws 0 (LibraryError "no database")
    | Get _ => Throws 0 (LibraryError "no network")
    | Cursor _ => Throws 0 (LibraryError "no database")
    | Execute _ _ _ => Throws 0 (LibraryError "no database")
    | Fetchall _ => Throws 0 (LibraryError "no database")
    | Close _ => Throws 0 (LibraryError "no database")
    end.

(** The Delay Service behind [requests.get]. *)
Definition delay_service (url : string) : reply response :=
  let (tr, e) := run timer (Api.handle (query_of_url url)) in
  match elapsed tr, e with
  | Some t, Responded r =>
      Returns t {| status_code := Api.status r; text := Api.body r |}
  | Some t, Unhandled _ =>
      Returns t {| status_code := 500; text := "500 Internal Server Error" |}
  | _, _ => Hangs
  end.

Definition lab : world :=
  fun a =>
    match a return reply (answer a) with
    | Connect _ _ _ => Returns 0 1%nat
    | Get url => delay_service url
    | Cursor _ => Returns 0 1%nat
    | Execute _ sql params =>
        match params with
        | [p] =>
            if sql =? "SELECT pg_sleep(%s), NOW()" then timer_reply p
            else Throws 0 (LibraryError "unknown statement")
        | _ => Throws 0 (LibraryError "wrong number of parameters")
        end
    | Fetchall _ =>
        Returns 0 {| str_rows := "[('', datetime.datetime(2020, 1, 1, 0, 0))]" |}
    | Close _ => Returns 0 tt
    | Sleep d => timer_reply d
    end.

(** ** Notions the properties are stated with *)

(** The decimal [m * 10^e] is not an integer. *)
Definition fractional (m : N) (e : Z) : bool :=
  match e with
  | Zneg k => negb (m mod Npos (10 ^ k) =? 0)%N
  | _ => false
  end.

(** A program that calls [connection.close()] on no path: whatever the calls
    before it returned, no call of the program is a [Close]. *)
Inductive no_close {R : Type} : prog R -> Prop :=
| no_close_ret (r : R) : no_close (Ret r)
| no_close_raise (e : exn) : no_close (Raise e)
| no_close_call (a : action) (k : answer a -> prog R) :
    is_close a = false -> (forall x : answer a, no_close (k x)) ->
    no_close (Call a k).

(** A program whose first step is the call [a]. *)
Definition starts_with {R : Type} (a : action) (p : prog R) : Prop :=
  exists k : answer a -> prog R, p = Call a k.

(** Every character of [s] satisfies [f]. *)
Fixpoint all_chars (f : ascii -> bool) (s : string) : bool :=
  match s with
  | EmptyString => true
  | String c s' => f c && all_chars f s'
  end.

(** The characters of the decimal text of an integer. *)
Definition is_digit_or_minus (c : ascii) : bool :=
  match digit_val c with
  | Some _ => true
  | None => Ascii.eqb c "-"
  end.

(** Which library function a call is a call of. *)
Inductive kind : Type :=
| KConnect | KGet | KCursor | KExecute | KFetchall | KClose | KSleep.

Definition kind_of (a : action) : kind :=
  match a with
  | Connect _ _ _ => KConnect
  | Get _ => KGet
  | Cursor _ => KCursor
  | Execute _ _ _ => KExecute
  | Fetchall _ => KFetchall
  | Close _ => KClose
  | Sleep _ => KSleep
  end.

(** [in_order ks p]: on every path the program makes calls of the kinds
    [ks], in this order; it may raise at any point, and it returns only when
    it has made them all. *)
Inductive in_order {R : Type} : list kind -> prog R -> Prop :=
| in_order_ret (r : R) : in_order [] (Ret r)
| in_order_raise (ks : list kind) (e : exn) : in_order ks (Raise e)
| in_order_call (ks : list kind) (a : action) (k : answer a -> prog R) :
    (forall x : answer a, in_order ks (k x)) ->
    in_order (kind_of a :: ks) (Call a k).

(** [ends_with PR PE p]: every value the program returns satisfies [PR] and
    every exception it raises by itself satisfies [PE]. *)
Inductive ends_with {R : Type} (PR : R -> Prop) (PE : exn -> Prop) : prog R -> Prop :=
| ends_with_ret (r : R) : PR r -> ends_with PR PE (Ret r)
| ends_with_raise (e : exn) : PE e -> ends_with PR PE (Raise e)
| ends_with_call (a : action) (k : answer a -> prog R) :
    (forall x : answer a, ends_with PR PE (k x)) -> ends_with PR PE (Call a k).


(** A float that is a zero, an infinity or a NaN. *)
Definition special (d : float) : bool :=
  match d with
  | S754_finite _ _ _ => false
  | _ => true
  end.


(** * Properties *)

(** ** The built-ins on some inputs *)

Example int_cast_examples :
  py_int (PStr " -1_2 ") = Ok (-12)%Z /\
  py_int (PStr "+007") = Ok 7%Z /\
  py_int (PStr "1.0") = Err ValueError /\
  py_int (PStr "1e3") = Err ValueError /\
  py_int (PStr "1__0") = Err ValueError /\
  py_int (PStr "  ") = Err ValueError /\
  py_int (PInt 1) = Ok 1%Z.
Proof. repeat split; reflexivity. Qed.

Example float_cast_examples :
  py_float (PStr "2") = Ok float_two /\
  py_float (PStr " 1.0 ") = Ok float_one /\
  py_float (PStr ".5") = Ok float_half /\
  py_float (PStr "5e-1") = Ok float_half /\
  py_float (PStr "0_0.5_0") = Ok float_half /\
  py_float (PStr "0.1") = Ok (S754_finite false 7205759403792794 (-56)) /\
  py_float (PStr "-0") = Ok (S754_zero true) /\
  py_float (PStr "1e400") = Ok (S754_infinity false) /\
  py_float (PStr "-Infinity") = Ok (S754_infinity true) /\
  py_float (PStr "NaN") = Ok S754_nan /\
  py_float (PStr "1e") = Err ValueError /\
  py_float (PStr ".") = Err ValueError /\
  py_float (PStr "0x10") = Err ValueError /\
  py_float (PStr "1 2") = Err ValueError /\
  py_float (PInt 1) = Ok float_one.
Proof. repeat split; vm_compute; reflexivity. Qed.

Example str_examples :
  str_int 0 = "0" /\ str_int (-12) = "-12" /\
  str_float float_one = "1.0" /\
  str_float float_half = "0.5" /\
  str_float (halve float_half) = "0.25" /\
  str_float (S754_finite false 7205759403792794 (-56)) = "0.1" /\
  str_float (round_decimal false 1 16) = "1e+16" /\
  str_float (round_decimal false 1 15) = "1000000000000000.0" /\
  str_float (round_decimal true 1 (-5)) = "-1e-05" /\
  str_float (round_decimal false 1 (-4)) = "0.0001" /\
  str_float (round_decimal false 123456789 (-3)) = "123456.789" /\
  str_float (S754_zero true) = "-0.0" /\
  str_float (S754_infinity false) = "inf" /\
  str_float S754_nan = "nan".
Proof. repeat split; vm_compute; reflexivity. Qed.

(** ** Each handler is its first line followed by the rest *)

Lemma handle_eq (request : query) :
  Api.handle request =
  (delay <- cast (py_float (py_or (get request "delay") 1)) ;; handle_with delay).
Proof. reflexivity. Qed.

Lemma app_index_eq (api_port : string) (request : query) :
  App.index api_port request =
  (delay <- cast (py_int (py_or (get request "delay") 1)) ;;
   app_index_with api_port delay).
Proof. reflexivity. Qed.

Lemma db_index_eq (api_port : string) (request : query) :
  Db.index api_port request =
  (conn <- psycopg2_connect "example" "example" "postgres" ;;
   delay <- cast (py_float (py_or (get request "delay") 1)) ;;
   db_index_with api_port conn delay).
Proof. reflexivity. Qed.

(** ** The two casts on the same string *)

(** Case analysis on a character, one case per code point. *)
Ltac each_char c := destruct c as [[] [] [] [] [] [] [] []].

Lemma digit_not_special (c : ascii) (d : N) (s : string) (neg : bool) :
  digit_val c = Some d -> special_literal neg (String c s) = None.
Proof.
  intros Hd. unfold special_literal. cbn [lower].
  each_char c; try discriminate Hd; reflexivity.
Qed.

Lemma digits_from_head (acc : N) (s : string) (r : N * nat * string) :
  digits_from acc s = Some r ->
  exists c s' d, s = String c s' /\ digit_val c = Some d.
Proof.
  destruct s as [|c s']; cbn [digits_from]; [discriminate|].
  destruct (digit_val c) as [d|] eqn:Hd; [|discriminate].
  intros _. now exists c, s', d.
Qed.

(** A string [int] accepts is accepted by [float] too, and denotes the same
    integer there. *)
Lemma int_literal_float_literal (s : string) (neg : bool) (n : N) :
  int_literal s = Some (neg, n) -> float_literal s = Some (LitNum neg n 0).
Proof.
  unfold int_literal, float_literal.
  destruct (sign_of (strip s)) as [sg body].
  destruct (digits_from 0 body) as [[[v len] rest]|] eqn:Hdig; [|discriminate].
  destruct rest; [|discriminate].
  intros [= -> ->].
  destruct (digits_from_head _ _ _ Hdig) as (c & s' & d & -> & Hd).
  rewrite (digit_not_special c d s' neg Hd).
  unfold decimal_literal, mantissa. rewrite Hdig. reflexivity.
Qed.

Lemma float_rejects_int_rejects (s : string) :
  float_literal s = None -> int_literal s = None.
Proof.
  intros Hf. destruct (int_literal s) as [[neg n]|] eqn:Hi; [|reflexivity].
  apply int_literal_float_literal in Hi. congruence.
Qed.

Lemma fractional_int_rejects (s : string) (neg : bool) (m : N) (e : Z) :
  float_literal s = Some (LitNum neg m e) -> fractional m e = true ->
  int_literal s = None.
Proof.
  intros Hf Hfrac. destruct (int_literal s) as [[sg n]|] eqn:Hi; [|reflexivity].
  apply int_literal_float_literal in Hi. rewrite Hi in Hf.
  injection Hf as _ _ <-. discriminate Hfrac.
Qed.

(** ** [int(str(n)) = n] *)

Lemma digit_run_digit (c : ascii) (d acc : N) (len : nat) (s : string) :
  digit_val c = Some d ->
  digit_run acc len (String c s) = digit_run (acc * 10 + d) (S len) s.
Proof. intros H. cbn [digit_run]. now rewrite H. Qed.

Ltac digit_value :=
  match goal with
  | |- context [(N_of_ascii ?c - 48)%N] =>
      let x := eval vm_compute in (N_of_ascii c - 48)%N in
      change (N_of_ascii c - 48)%N with x
  end.

Lemma digit_run_pos (d : Decimal.uint) (p : positive) (len : nat) :
  digit_run (Npos p) len (NilEmpty.string_of_uint d) =
  (Npos (Pos.of_uint_acc d p), (len + Decimal.nb_digits d)%nat, EmptyString).
Proof.
  revert p len.
  induction d; intros p len;
    cbn [NilEmpty.string_of_uint Decimal.nb_digits Pos.of_uint_acc];
    [ now rewrite Nat.add_0_r | .. ];
    erewrite digit_run_digit by reflexivity; digit_value;
    rewrite <- Nat.add_succ_comm;
    match goal with
    | |- digit_run ?v _ _ = (Npos (Pos.of_uint_acc _ ?q), _, _) =>
        replace v with (Npos q) by lia
    end;
    apply IHd.
Qed.

Lemma digit_run_zero (d : Decimal.uint) (len : nat) :
  digit_run 0 len (NilEmpty.string_of_uint d) =
  (Pos.of_uint d, (len + Decimal.nb_digits d)%nat, EmptyString).
Proof.
  revert len.
  induction d; intros len;
    cbn [NilEmpty.string_of_uint Decimal.nb_digits Pos.of_uint];
    [ now rewrite Nat.add_0_r | .. ];
    erewrite digit_run_digit by reflexivity; digit_value;
    rewrite <- Nat.add_succ_comm;
    first [ apply IHd | apply digit_run_pos ].
Qed.

Lemma rstrip_uint (d : Decimal.uint) :
  rstrip (NilEmpty.string_of_uint d) = NilEmpty.string_of_uint d.
Proof.
  induction d; cbn [NilEmpty.string_of_uint]; [reflexivity|..];
    cbn [rstrip]; rewrite IHd;
    destruct (NilEmpty.string_of_uint d); reflexivity.
Qed.

Lemma strip_uint (d : Decimal.uint) :
  strip (NilEmpty.string_of_uint d) = NilEmpty.string_of_uint d.
Proof.
  unfold strip.
  replace (lstrip (NilEmpty.string_of_uint d)) with (NilEmpty.string_of_uint d)
    by (destruct d; reflexivity).
  apply rstrip_uint.
Qed.

Lemma strip_minus_uint (d : Decimal.uint) :
  strip (String "-" (NilEmpty.string_of_uint d)) =
  String "-" (NilEmpty.string_of_uint d).
Proof.
  unfold strip. cbn [lstrip]. change (is_space "-") with false.
  cbn [rstrip]. rewrite rstrip_uint.
  destruct (NilEmpty.string_of_uint d); reflexivity.
Qed.

Lemma digits_from_uint (d : Decimal.uint) :
  d <> Decimal.Nil ->
  digits_from 0 (NilEmpty.string_of_uint d) =
  Some (Pos.of_uint d, Decimal.nb_digits d, EmptyString).
Proof.
  intros Hd.
  replace (digits_from 0 (NilEmpty.string_of_uint d))
    with (Some (digit_run 0 0 (NilEmpty.string_of_uint d)))
    by (destruct d; [contradiction|reflexivity..]).
  now rewrite digit_run_zero.
Qed.

Lemma int_literal_uint (d : Decimal.uint) :
  d <> Decimal.Nil ->
  int_literal (NilEmpty.string_of_uint d) = Some (false, Pos.of_uint d).
Proof.
  intros Hd. unfold int_literal. rewrite strip_uint.
  replace (sign_of (NilEmpty.string_of_uint d))
    with (false, NilEmpty.string_of_uint d) by (destruct d; reflexivity).
  now rewrite digits_from_uint.
Qed.

Lemma int_literal_minus_uint (d : Decimal.uint) :
  d <> Decimal.Nil ->
  int_literal (String "-" (NilEmpty.string_of_uint d)) = Some (true, Pos.of_uint d).
Proof.
  intros Hd. unfold int_literal. rewrite strip_minus_uint.
  cbn [sign_of]. now rewrite digits_from_uint.
Qed.

Lemma string_of_uint_nonnil (d : Decimal.uint) :
  d <> Decimal.Nil -> NilZero.string_of_uint d = NilEmpty.string_of_uint d.
Proof. destruct d; [contradiction|reflexivity..]. Qed.

(** The decimal text of an integer reads back as that integer. *)
Lemma int_literal_str_int (z : Z) :
  int_literal (str_int z) = Some ((z <? 0)%Z, Z.abs_N z).
Proof.
  destruct z as [|p|p]; [reflexivity|..];
    pose proof (DecimalPos.Unsigned.to_uint_nonnil p) as Hnil;
    unfold str_int; cbn [Z.to_int NilZero.string_of_int];
    rewrite string_of_uint_nonnil by exact Hnil;
    [ rewrite int_literal_uint by exact Hnil
    | rewrite int_literal_minus_uint by exact Hnil ];
    now rewrite DecimalPos.Unsigned.of_to.
Qed.

Lemma py_int_str_int (z : Z) : py_int (PStr (str_int z)) = Ok z.
Proof.
  cbn [py_int]. rewrite int_literal_str_int.
  destruct z; reflexivity.
Qed.

(** ** Running the handlers *)

Ltac run_step :=
  cbn [run bind cast fst snd psycopg2_connect requests_get conn_cursor
       cur_execute cur_fetchall asyncio_sleep handle_with app_index_with
       db_index_with calls map hd_error existsb is_close orb].

(** Running [p] and then [f] on its result is running the two in a row. *)
Lemma run_bind {A B : Type} (w : world) (p : prog A) (f : A -> prog B) :
  run w (bind p f) =
  match run w p with
  | (tr, Responded a) => let (tr', e) := run w (f a) in ((tr ++ tr')%list, e)
  | (tr, Unhandled e) => (tr, Unhandled e)
  | (tr, Hung) => (tr, Hung)
  end.
Proof.
  induction p as [a|e|a k IH]; cbn [bind run].
  - destruct (run w (f a)); reflexivity.
  - reflexivity.
  - destruct (w a) as [dt x|dt e|]; [|reflexivity..].
    rewrite IH. destruct (run w (k x)) as [tr [r|e|]]; [|reflexivity..].
    destruct (run w (f r)); reflexivity.
Qed.

Lemma float_one_is_1 : Qof float_one = Some 1%Q /\ Qof float_half = Some (1 # 2)%Q.
Proof. split; reflexivity. Qed.

Lemma float_literal_empty : float_literal "" = None.
Proof. reflexivity. Qed.

Lemma py_or_text (s : string) (d : Z) : s <> "" -> py_or (Some s) d = PStr s.
Proof. destruct s; [contradiction|reflexivity]. Qed.

(** What the three handlers are on a delay that neither cast accepts. *)
Lemma unparsable_delay_programs (api_port : string) (request : query) (s : string) :
  get request "delay" = Some s -> s <> "" -> float_literal s = None ->
  py_float (py_or (get request "delay") 1) = Err ValueError /\
  py_int (py_or (get request "delay") 1) = Err ValueError /\
  Api.handle request = Raise ValueError /\
  App.index api_port request = Raise ValueError /\
  Db.index api_port request =
    (conn <- psycopg2_connect "example" "example" "postgres" ;;
     Raise ValueError).
Proof.
  intros H Hs Hf.
  pose proof (float_rejects_int_rejects s Hf) as Hi.
  rewrite handle_eq, app_index_eq, db_index_eq, H, (py_or_text s 1 Hs).
  cbn [py_float py_int]. rewrite Hf, Hi. repeat split; reflexivity.
Qed.

(** ** The default of [delay] *)

(** C6: when the request has no [delay] parameter, each of the three
    handlers goes on with the delay 1: the Delay Service sleeps [1.0], the
    API variant asks the Delay Service for [delay=1], the Database variant
    works with the float [1.0]. *)
Theorem missing_delay_defaults_to_one (api_port : string) (request : query) :
  get request "delay" = None ->
  py_float (py_or (get request "delay") 1) = Ok float_one /\
  py_int (py_or (get request "delay") 1) = Ok 1%Z /\
  Api.handle request = handle_with float_one /\
  App.index api_port request = app_index_with api_port 1 /\
  Db.index api_port request =
    (conn <- psycopg2_connect "example" "example" "postgres" ;;
     db_index_with api_port conn float_one).
Proof.
  intros H. rewrite handle_eq, app_index_eq, db_index_eq, H.
  repeat split; reflexivity.
Qed.

Lemma missing_delay_defaults_to_one_witness :
  py_float (py_or (get [("name", "x")] "delay") 1) = Ok float_one /\
  py_int (py_or (get [("name", "x")] "delay") 1) = Ok 1%Z /\
  Api.handle [("name", "x")] = handle_with float_one /\
  App.index "8000" [("name", "x")] = app_index_with "8000" 1 /\
  Db.index "8000" [("name", "x")] =
    (conn <- psycopg2_connect "example" "example" "postgres" ;;
     db_index_with "8000" conn float_one).
Proof.
  apply (missing_delay_defaults_to_one "8000" [("name", "x")]). reflexivity.
Defined.

(** C10: a [delay] parameter that is present and empty is falsy, so the
    default is taken and neither cast raises: in each of the three services
    the delay is 1 and the handler goes on with it (the Delay Service sleeps
    [1.0], the API variant asks for [delay=1], the Database variant works
    with the float [1.0]), exactly as it does on a request without the
    parameter. *)
Theorem empty_delay_is_missing_delay (api_port : string) (request : query) :
  get request "delay" = Some "" ->
  py_float (py_or (get request "delay") 1) = Ok float_one /\
  py_int (py_or (get request "delay") 1) = Ok 1%Z /\
  Api.handle request = handle_with float_one /\
  App.index api_port request = app_index_with api_port 1 /\
  Db.index api_port request =
    (conn <- psycopg2_connect "example" "example" "postgres" ;;
     db_index_with api_port conn float_one) /\
  Api.handle request = Api.handle [] /\
  App.index api_port request = App.index api_port [] /\
  Db.index api_port request = Db.index api_port [].
Proof.
  intros H. rewrite !handle_eq, !app_index_eq, !db_index_eq, H.
  repeat split; reflexivity.
Qed.

Lemma empty_delay_is_missing_delay_witness :
  py_float (py_or (get [("delay", "")] "delay") 1) = Ok float_one /\
  py_int (py_or (get [("delay", "")] "delay") 1) = Ok 1%Z /\
  Api.handle [("delay", "")] = handle_with float_one /\
  App.index "8000" [("delay", "")] = app_index_with "8000" 1 /\
  Db.index "8000" [("delay", "")] =
    (conn <- psycopg2_connect "example" "example" "postgres" ;;
     db_index_with "8000" conn float_one) /\
  Api.handle [("delay", "")] = Api.handle [] /\
  App.index "8000" [("delay", "")] = App.index "8000" [] /\
  Db.index "8000" [("delay", "")] = Db.index "8000" [].
Proof.
  apply (empty_delay_is_missing_delay "8000" [("delay", "")]). reflexivity.
Defined.

(** C3, as stated, fails: the delay [abc] is not replaced by 1; both casts
    raise [ValueError] and the handlers raise with them. *)
Lemma unparsable_delay_is_not_defaulted :
  py_float (py_or (get [("delay", "abc")] "delay") 1) = Err ValueError /\
  py_float (py_or (get [("delay", "abc")] "delay") 1) <> Ok float_one /\
  py_int (py_or (get [("delay", "abc")] "delay") 1) = Err ValueError /\
  py_int (py_or (get [("delay", "abc")] "delay") 1) <> Ok 1%Z /\
  Api.handle [("delay", "abc")] = Raise ValueError /\
  App.index "8000" [("delay", "abc")] = Raise ValueError.
Proof. repeat split; try reflexivity; discriminate. Qed.

(** C3, amended: the delay is 1 when the parameter is absent or empty; a
    non-empty value that is not a number is not defaulted: the cast raises
    [ValueError], and so does the handler, before it uses any delay. *)
Theorem delay_defaulted_only_when_missing (api_port : string) :
  (forall request : query,
      get request "delay" = None \/ get request "delay" = Some "" ->
      py_float (py_or (get request "delay") 1) = Ok float_one /\
      py_int (py_or (get request "delay") 1) = Ok 1%Z) /\
  (forall (request : query) (s : string),
      get request "delay" = Some s -> s <> "" -> float_literal s = None ->
      py_float (py_or (get request "delay") 1) = Err ValueError /\
      py_int (py_or (get request "delay") 1) = Err ValueError /\
      Api.handle request = Raise ValueError /\
      App.index api_port request = Raise ValueError /\
      Db.index api_port request =
        (conn <- psycopg2_connect "example" "example" "postgres" ;;
         Raise ValueError)).
Proof.
  split.
  - intros request [H|H]; rewrite H; split; reflexivity.
  - intros request s H Hs Hf.
    exact (unparsable_delay_programs api_port request s H Hs Hf).
Qed.

Lemma delay_defaulted_only_when_missing_witness :
  (py_float (py_or (get [] "delay") 1) = Ok float_one /\
   py_int (py_or (get [] "delay") 1) = Ok 1%Z) /\
  (py_float (py_or (get [("delay", "1s")] "delay") 1) = Err ValueError /\
   py_int (py_or (get [("delay", "1s")] "delay") 1) = Err ValueError /\
   Api.handle [("delay", "1s")] = Raise ValueError /\
   App.index "8000" [("delay", "1s")] = Raise ValueError /\
   Db.index "8000" [("delay", "1s")] =
     (conn <- psycopg2_connect "example" "example" "postgres" ;;
      Raise ValueError)).
Proof.
  split.
  - apply (proj1 (delay_defaulted_only_when_missing "8000") []).
    left. reflexivity.
  - apply (proj2 (delay_defaulted_only_when_missing "8000") [("delay", "1s")] "1s").
    + reflexivity.
    + discriminate.
    + reflexivity.
Defined.

(** ** A delay that is not a number *)

(** C2, as stated, fails: for the delay [abc] every handler lets the
    [ValueError] of its cast escape; it returns no response, and what the
    framework then answers is 500, not a 4xx status. *)
Lemma non_numeric_delay_is_no_client_error :
  run lab (Api.handle [("delay", "abc")]) = ([], Unhandled ValueError) /\
  client_error (aiohttp_status (snd (run lab (Api.handle [("delay", "abc")])))) = false /\
  run lab (App.index "8000" [("delay", "abc")]) = ([], Unhandled ValueError) /\
  client_error (flask_status (snd (run lab (App.index "8000" [("delay", "abc")])))) = false /\
  run lab (Db.index "8000" [("delay", "abc")]) =
    ([{| call := Connect "example" "example" "postgres"; took := Some 0%Q |}],
     Unhandled ValueError) /\
  client_error (flask_status (snd (run lab (Db.index "8000" [("delay", "abc")])))) = false.
Proof. repeat split; reflexivity. Qed.

(** C2, amended: for a delay that is a non-empty string and not a number,
    each handler ends with an unhandled [ValueError], whatever the libraries
    do: the Delay Service and the API variant before any call, the Database
    variant right after [psycopg2.connect] has returned.  No handler returns
    a response, and the status the framework answers with is never a 4xx. *)
Theorem non_numeric_delay_raises_value_error
  (api_port : string) (request : query) (s : string) (w : world) :
  get request "delay" = Some s -> s <> "" -> float_literal s = None ->
  run w (Api.handle request) = ([], Unhandled ValueError) /\
  run w (App.index api_port request) = ([], Unhandled ValueError) /\
  (forall (dt : Q) (conn : connection),
      w (Connect "example" "example" "postgres") = Returns dt conn ->
      run w (Db.index api_port request) =
        ([{| call := Connect "example" "example" "postgres"; took := Some dt |}],
         Unhandled ValueError)) /\
  (forall body : string, snd (run w (Db.index api_port request)) <> Responded body) /\
  client_error (aiohttp_status (snd (run w (Api.handle request)))) = false /\
  client_error (flask_status (snd (run w (App.index api_port request)))) = false /\
  client_error (flask_status (snd (run w (Db.index api_port request)))) = false.
Proof.
  intros H Hs Hf.
  destruct (unparsable_delay_programs api_port request s H Hs Hf)
    as (_ & _ & -> & -> & ->).
  run_step.
  destruct (w (Connect "example" "example" "postgres")) as [dt conn|dt e|];
    repeat split; try reflexivity; try discriminate;
    intros dt' conn' [= <- <-]; reflexivity.
Qed.

Lemma non_numeric_delay_raises_value_error_witness :
  run lab (Api.handle [("delay", "1s")]) = ([], Unhandled ValueError) /\
  run lab (App.index "8000" [("delay", "1s")]) = ([], Unhandled ValueError) /\
  (forall (dt : Q) (conn : connection),
      lab (Connect "example" "example" "postgres") = Returns dt conn ->
      run lab (Db.index "8000" [("delay", "1s")]) =
        ([{| call := Connect "example" "example" "postgres"; took := Some dt |}],
         Unhandled ValueError)) /\
  (forall body : string,
      snd (run lab (Db.index "8000" [("delay", "1s")])) <> Responded body) /\
  client_error (aiohttp_status (snd (run lab (Api.handle [("delay", "1s")])))) = false /\
  client_error (flask_status (snd (run lab (App.index "8000" [("delay", "1s")])))) = false /\
  client_error (flask_status (snd (run lab (Db.index "8000" [("delay", "1s")])))) = false.
Proof.
  apply (non_numeric_delay_raises_value_error "8000" [("delay", "1s")] "1s" lab).
  - reflexivity.
  - discriminate.
  - reflexivity.
Defined.

(** ** Integer cast against float cast *)

(** C9: the API variant casts the delay with [int], the other two handlers
    with [float].  For every delay string that denotes a number that is not
    an integer, the API variant ends with an unhandled [ValueError] and makes
    no call, while the Delay Service sleeps on the value and the Database
    variant goes on with it. *)
Theorem fractional_delay_splits_the_services
  (api_port : string) (request : query) (s : string)
  (neg : bool) (m : N) (e : Z) :
  get request "delay" = Some s ->
  float_literal s = Some (LitNum neg m e) -> fractional m e = true ->
  App.index api_port request = Raise ValueError /\
  (forall w : world, run w (App.index api_port request) = ([], Unhandled ValueError)) /\
  Api.handle request = handle_with (round_decimal neg m e) /\
  Db.index api_port request =
    (conn <- psycopg2_connect "example" "example" "postgres" ;;
     db_index_with api_port conn (round_decimal neg m e)).
Proof.
  intros H Hf Hfrac.
  assert (Hs : s <> "") by (intros ->; rewrite float_literal_empty in Hf; discriminate Hf).
  pose proof (fractional_int_rejects s neg m e Hf Hfrac) as Hi.
  rewrite handle_eq, app_index_eq, db_index_eq, H, (py_or_text s 1 Hs).
  cbn [py_float py_int]. rewrite Hf, Hi.
  repeat split; reflexivity.
Qed.

Lemma fractional_delay_splits_the_services_witness :
  App.index "8000" [("delay", "1.5")] = Raise ValueError /\
  (forall w : world,
      run w (App.index "8000" [("delay", "1.5")]) = ([], Unhandled ValueError)) /\
  Api.handle [("delay", "1.5")] = handle_with (round_decimal false 15 (-1)) /\
  Db.index "8000" [("delay", "1.5")] =
    (conn <- psycopg2_connect "example" "example" "postgres" ;;
     db_index_with "8000" conn (round_decimal false 15 (-1))).
Proof.
  apply (fractional_delay_splits_the_services
           "8000" [("delay", "1.5")] "1.5" false 15 (-1)); reflexivity.
Defined.

(** ** The Delay Service *)

(** C4: for every delay [d] the cast accepts, the Delay Service makes exactly
    one call, [asyncio.sleep] with that very [d], and once the sleep has
    returned it answers 200 with the body [slow api response].  The answer
    comes when the sleep is over: for a delay of [q >= 0] seconds and a timer
    that does not fire early, no earlier than [q] seconds after the
    request. *)
Theorem handle_sleeps_then_responds
  (request : query) (d : float) (q : Q) (w : world) (dt : Q) (u : unit) :
  py_float (py_or (get request "delay") 1) = Ok d ->
  Qof d = Some q -> (0 <= q)%Q ->
  w (Sleep d) = Returns dt u -> (q <= dt)%Q ->
  Api.handle request = handle_with d /\
  run w (Api.handle request) =
    ([{| call := Sleep d; took := Some dt |}],
     Responded {| Api.status := 200; Api.body := "slow api response" |}) /\
  aiohttp_status (snd (run w (Api.handle request))) = Some 200%nat /\
  exists t : Q,
    elapsed (fst (run w (Api.handle request))) = Some t /\ (0 <= q <= t)%Q.
Proof.
  intros Hd _ Hq Hw Hdt.
  rewrite handle_eq, Hd. run_step. rewrite Hw. run_step.
  repeat split.
  exists (dt + 0)%Q. split; [reflexivity|]. lra.
Qed.

Lemma handle_sleeps_then_responds_witness :
  Api.handle [("delay", "2.5")] = handle_with (round_decimal false 25 (-1)) /\
  run lab (Api.handle [("delay", "2.5")]) =
    ([{| call := Sleep (round_decimal false 25 (-1)); took := Some (5 # 2)%Q |}],
     Responded {| Api.status := 200; Api.body := "slow api response" |}) /\
  aiohttp_status (snd (run lab (Api.handle [("delay", "2.5")]))) = Some 200%nat /\
  exists t : Q,
    elapsed (fst (run lab (Api.handle [("delay", "2.5")]))) = Some t /\
    (0 <= 5 # 2 <= t)%Q.
Proof.
  apply (handle_sleeps_then_responds
           [("delay", "2.5")] (round_decimal false 25 (-1)) (5 # 2)%Q lab (5 # 2)%Q tt).
  - reflexivity.
  - reflexivity.
  - vm_compute. discriminate.
  - reflexivity.
  - vm_compute. discriminate.
Defined.

(** ** The API variant of the Front Service *)

(** C5, as stated, fails: the delays [0.5] and [2.0] are numbers and not
    negative, the float cast of the other two services reads them, but the
    integer cast of the API variant raises [ValueError] on them: the handler
    makes no GET and returns no body. *)
Lemma app_index_raises_on_numeric_delay :
  py_float (py_or (get [("delay", "0.5")] "delay") 1) = Ok float_half /\
  Qof float_half = Some (1 # 2)%Q /\
  App.index "8000" [("delay", "0.5")] = Raise ValueError /\
  run lab (App.index "8000" [("delay", "0.5")]) = ([], Unhandled ValueError) /\
  py_float (py_or (get [("delay", "2.0")] "delay") 1) = Ok float_two /\
  Qof float_two = Some 2%Q /\
  App.index "8000" [("delay", "2.0")] = Raise ValueError /\
  run lab (App.index "8000" [("delay", "2.0")]) = ([], Unhandled ValueError).
Proof. repeat split; reflexivity. Qed.

(** C5, amended: for every delay [n] the integer cast accepts, the API variant makes
    exactly one call, a GET of the Delay Service's URL with [delay=n] (text
    that reads back as the same [n], also for the float cast of the Delay
    Service), and when that call has returned it answers [Hi there! ]
    followed by the text received: [Hi there! slow api response] when the
    Delay Service answered [slow api response]. *)
Theorem app_index_forwards_delay
  (api_port : string) (request : query) (n : Z) (w : world) (dt : Q)
  (resp : response) :
  py_int (py_or (get request "delay") 1) = Ok n ->
  w (Get (App.api_url api_port ++ "?delay=" ++ str_int n)) = Returns dt resp ->
  run w (App.index api_port request) =
    ([{| call := Get (App.api_url api_port ++ "?delay=" ++ str_int n);
         took := Some dt |}],
     Responded ("Hi there! " ++ text resp)) /\
  py_int (PStr (str_int n)) = Ok n /\
  float_literal (str_int n) = Some (LitNum (n <? 0)%Z (Z.abs_N n) 0) /\
  (text resp = "slow api response" ->
   snd (run w (App.index api_port request)) = Responded "Hi there! slow api response").
Proof.
  intros Hn Hw.
  rewrite app_index_eq, Hn. run_step. rewrite Hw. run_step.
  repeat split.
  - apply py_int_str_int.
  - apply int_literal_float_literal, int_literal_str_int.
  - intros ->. reflexivity.
Qed.

Lemma app_index_forwards_delay_witness :
  run lab (App.index "8000" [("delay", " +3 ")]) =
    ([{| call := Get "http://slow_api:8000/?delay=3"; took := Some 3%Q |}],
     Responded "Hi there! slow api response") /\
  py_int (PStr (str_int 3)) = Ok 3%Z /\
  float_literal (str_int 3) = Some (LitNum (3 <? 0)%Z (Z.abs_N 3) 0) /\
  ("slow api response" = "slow api response" ->
   snd (run lab (App.index "8000" [("delay", " +3 ")])) =
     Responded "Hi there! slow api response").
Proof.
  apply (app_index_forwards_delay "8000" [("delay", " +3 ")] 3 lab 3%Q
           {| status_code := 200; text := "slow api response" |}).
  - reflexivity.
  - reflexivity.
Defined.

(** ** The Database variant of the Front Service *)

Section DbRun.

(** A request whose delay the cast accepts, in a world where each of the
    five calls of the handler returns. *)
Variables (api_port : string) (request : query) (d : float) (w : world).
Variables (dt0 dt1 dt2 dt3 dt4 : Q).
Variables (conn : connection) (resp : response) (cur : cursor) (u : unit).
Variable fetched : rows.

Hypothesis delay_accepted :
  py_float (py_or (get request "delay") 1) = Ok d.
Hypothesis connect_returns :
  w (Connect "example" "example" "postgres") = Returns dt0 conn.
Hypothesis get_returns :
  w (Get (Db.api_url api_port ++ "?delay=" ++ str_float (halve d))) = Returns dt1 resp.
Hypothesis cursor_returns :
  w (Cursor conn) = Returns dt2 cur.
Hypothesis execute_returns :
  w (Execute cur "SELECT pg_sleep(%s), NOW()" [halve d]) = Returns dt3 u.
Hypothesis fetchall_returns :
  w (Fetchall cur) = Returns dt4 fetched.

(** The run of the handler. *)
Lemma db_index_run :
  run w (Db.index api_port request) =
    ([{| call := Connect "example" "example" "postgres"; took := Some dt0 |};
      {| call := Get (Db.api_url api_port ++ "?delay=" ++ str_float (halve d));
         took := Some dt1 |};
      {| call := Cursor conn; took := Some dt2 |};
      {| call := Execute cur "SELECT pg_sleep(%s), NOW()" [halve d];
         took := Some dt3 |};
      {| call := Fetchall cur; took := Some dt4 |}],
     Responded ("Hi there! " ++ text resp ++ " " ++ str_rows fetched)).
Proof.
  rewrite db_index_eq. run_step.
  rewrite connect_returns. run_step.
  rewrite delay_accepted. run_step.
  rewrite get_returns. run_step.
  rewrite cursor_returns. run_step.
  rewrite execute_returns. run_step.
  rewrite fetchall_returns. reflexivity.
Qed.


(** C1, amended: in the Database variant the call to the Delay Service (with
    [d/2]) is made first and the query [pg_sleep(d/2)] is issued only after
    its response has arrived: the two are never in flight together.  The
    latency of the handler is the sum of the times its calls take, so when
    the Delay Service and [pg_sleep] each take at least [d/2] seconds it is
    at least twice [d/2]: for [d = 2] about two seconds. *)
Theorem db_calls_are_sequential (q : Q) :
  (0 <= dt0)%Q -> (0 <= dt2)%Q -> (0 <= dt4)%Q ->
  Qof (halve d) = Some q -> (q <= dt1)%Q -> (q <= dt3)%Q ->
  returned_at is_get 0 (fst (run w (Db.index api_port request))) =
    Some (0 + dt0 + dt1)%Q /\
  issued_at is_execute 0 (fst (run w (Db.index api_port request))) =
    Some (0 + dt0 + dt1 + dt2)%Q /\
  ~ in_flight_together is_get is_execute (fst (run w (Db.index api_port request))) /\
  elapsed (fst (run w (Db.index api_port request))) =
    Some (dt0 + (dt1 + (dt2 + (dt3 + (dt4 + 0)))))%Q /\
  (q + q <= dt0 + (dt1 + (dt2 + (dt3 + (dt4 + 0)))))%Q.
Proof.
  intros P0 P2 P4 Hq Q1 Q3.
  rewrite db_index_run.
  unfold in_flight_together.
  cbn [fst returned_at issued_at elapsed call took is_get is_execute].
  repeat split; try lra.
Qed.

End DbRun.


Lemma db_calls_are_sequential_witness :
  returned_at is_get 0 (fst (run lab (Db.index "8000" [("delay", "2")]))) =
    Some (0 + 0 + 1)%Q /\
  issued_at is_execute 0 (fst (run lab (Db.index "8000" [("delay", "2")]))) =
    Some (0 + 0 + 1 + 0)%Q /\
  ~ in_flight_together is_get is_execute
      (fst (run lab (Db.index "8000" [("delay", "2")]))) /\
  elapsed (fst (run lab (Db.index "8000" [("delay", "2")]))) =
    Some (0 + (1 + (0 + (1 + (0 + 0)))))%Q /\
  (1 + 1 <= 0 + (1 + (0 + (1 + (0 + 0)))))%Q.
Proof.
  apply (db_calls_are_sequential "8000" [("delay", "2")] float_two lab
           0%Q 1%Q 0%Q 1%Q 0%Q 1%nat
           {| status_code := 200; text := "slow api response" |} 1%nat tt
           {| str_rows := "[('', datetime.datetime(2020, 1, 1, 0, 0))]" |});
    try reflexivity; vm_compute; discriminate.
Defined.

(** C1, as stated, fails: for [delay=2], with a Delay Service that answers
    [delay=1.0] after exactly one second and a database whose [pg_sleep(1.0)]
    lasts exactly one second, the query is issued at the very moment the
    response of the Delay Service arrives, one second after the request, and
    the handler takes two seconds, not one. *)
Lemma db_calls_are_not_concurrent :
  calls (fst (run lab (Db.index "8000" [("delay", "2")]))) =
    [Connect "example" "example" "postgres";
     Get "http://slow_api:8000/?delay=1.0";
     Cursor 1%nat;
     Execute 1%nat "SELECT pg_sleep(%s), NOW()" [float_one];
     Fetchall 1%nat] /\
  returned_at is_get 0 (fst (run lab (Db.index "8000" [("delay", "2")]))) = Some 1%Q /\
  issued_at is_execute 0 (fst (run lab (Db.index "8000" [("delay", "2")]))) = Some 1%Q /\
  ~ in_flight_together is_get is_execute
      (fst (run lab (Db.index "8000" [("delay", "2")]))) /\
  elapsed (fst (run lab (Db.index "8000" [("delay", "2")]))) = Some 2%Q /\
  ~ (2 == 1)%Q.
Proof.
  repeat split; try reflexivity.
  - vm_compute. intros H. discriminate H.
  - intros H. discriminate H.
Qed.

(** ** The connection is left open *)

(** A run makes the calls of the program only. *)
Lemma no_close_run {R : Type} (w : world) (p : prog R) :
  no_close p -> existsb is_close (calls (fst (run w p))) = false.
Proof.
  induction 1 as [r|e|a k Ha Hk IH]; [reflexivity..|].
  cbn [run]. destruct (w a) as [dt x|dt e|].
  - specialize (IH x). destruct (run w (k x)) as [tr e].
    cbn [fst calls map existsb call] in *. now rewrite Ha.
  - cbn. now rewrite Ha.
  - cbn. now rewrite Ha.
Qed.

Lemma starts_with_run {R : Type} (w : world) (a : action) (p : prog R) :
  starts_with a p -> hd_error (calls (fst (run w p))) = Some a.
Proof.
  intros [k ->]. cbn [run]. destruct (w a) as [dt x|dt e|]; [|reflexivity..].
  destruct (run w (k x)); reflexivity.
Qed.

Lemma db_index_no_close (api_port : string) (request : query) :
  no_close (Db.index api_port request).
Proof.
  rewrite db_index_eq.
  apply no_close_call; [reflexivity|]. intros conn. cbn [bind].
  destruct (py_float (py_or (get request "delay") 1)) as [d|e];
    cbn [cast bind]; [|constructor].
  repeat (apply no_close_call; [reflexivity|]; intros ?; cbn [bind]).
  constructor.
Qed.

(** C8: on every request the Database variant begins by opening a database
    connection with [psycopg2.connect], and on no path, whatever the calls
    return or raise, does it call [close] on it: the handler ends with the
    connection still open. *)
Theorem db_index_never_closes (api_port : string) (request : query) :
  starts_with (Connect "example" "example" "postgres") (Db.index api_port request) /\
  no_close (Db.index api_port request) /\
  forall w : world,
    hd_error (calls (fst (run w (Db.index api_port request)))) =
      Some (Connect "example" "example" "postgres") /\
    existsb is_close (calls (fst (run w (Db.index api_port request)))) = false.
Proof.
  assert (Hs : starts_with (Connect "example" "example" "postgres")
                 (Db.index api_port request)).
  { rewrite db_index_eq. eexists. reflexivity. }
  pose proof (db_index_no_close api_port request) as Hn.
  repeat split; try assumption.
  - now apply starts_with_run.
  - now apply no_close_run.
Qed.

(** * Further properties of the casts *)

Lemma lstrip_spaces (s : string) : all_chars is_space s = true -> lstrip s = "".
Proof.
  induction s as [|c s IH]; cbn [all_chars lstrip]; [reflexivity|].
  intros H. apply andb_prop in H as [-> Hs]. now apply IH.
Qed.

Lemma lstrip_head (s : string) :
  lstrip s = "" \/ exists c t, lstrip s = String c t /\ is_space c = false.
Proof.
  induction s as [|c s IH]; cbn [lstrip]; [now left|].
  destruct (is_space c) eqn:Hc; [exact IH|]. right. now exists c, s.
Qed.

Lemma rstrip_head (c : ascii) (t : string) :
  is_space c = false -> exists t', rstrip (String c t) = String c t'.
Proof.
  intros Hc. cbn [rstrip]. rewrite Hc. destruct (rstrip t); eexists; reflexivity.
Qed.

Lemma rstrip_idem (s : string) : rstrip (rstrip s) = rstrip s.
Proof.
  induction s as [|c s IH]; [reflexivity|].
  cbn [rstrip]. destruct (rstrip s) as [|a r] eqn:Hr.
  - destruct (is_space c) eqn:Hc; [reflexivity|]. cbn [rstrip]. now rewrite Hc.
  - change (rstrip (String c (String a r))) with
      (match rstrip (String a r) with
       | EmptyString => if is_space c then EmptyString else String c EmptyString
       | String a' r' => String c (String a' r')
       end).
    now rewrite IH.
Qed.

(** Stripping twice is stripping once. *)
Lemma strip_idem (s : string) : strip (strip s) = strip s.
Proof.
  unfold strip. destruct (lstrip_head s) as [->|(c & t & -> & Hc)]; [reflexivity|].
  destruct (rstrip_head c t Hc) as [t' Ht]. rewrite Ht.
  cbn [lstrip]. rewrite Hc, <- Ht. apply rstrip_idem.
Qed.

Lemma float_literal_strip (s : string) : float_literal (strip s) = float_literal s.
Proof. unfold float_literal. now rewrite strip_idem. Qed.

Lemma int_literal_strip (s : string) : int_literal (strip s) = int_literal s.
Proof. unfold int_literal. now rewrite strip_idem. Qed.

Lemma float_literal_spaces (s : string) :
  all_chars is_space s = true -> float_literal s = None.
Proof.
  intros H. unfold float_literal, strip. now rewrite (lstrip_spaces s H).
Qed.

(** X1: a delay that is not empty but made of whitespace only is truthy, so
    it is not replaced by the default: both casts raise [ValueError] on it
    and the three handlers raise with them (the Database variant after it
    has opened its connection). *)
Theorem whitespace_delay_raises (api_port : string) (request : query) (s : string) :
  get request "delay" = Some s -> s <> "" -> all_chars is_space s = true ->
  py_float (py_or (get request "delay") 1) = Err ValueError /\
  py_int (py_or (get request "delay") 1) = Err ValueError /\
  Api.handle request = Raise ValueError /\
  App.index api_port request = Raise ValueError /\
  Db.index api_port request =
    (conn <- psycopg2_connect "example" "example" "postgres" ;;
     Raise ValueError).
Proof.
  intros H Hs Hsp.
  exact (unparsable_delay_programs api_port request s H Hs (float_literal_spaces s Hsp)).
Qed.

Lemma whitespace_delay_raises_witness :
  py_float (py_or (get [("delay", "  ")] "delay") 1) = Err ValueError /\
  py_int (py_or (get [("delay", "  ")] "delay") 1) = Err ValueError /\
  Api.handle [("delay", "  ")] = Raise ValueError /\
  App.index "8000" [("delay", "  ")] = Raise ValueError /\
  Db.index "8000" [("delay", "  ")] =
    (conn <- psycopg2_connect "example" "example" "postgres" ;;
     Raise ValueError).
Proof.
  apply (whitespace_delay_raises "8000" [("delay", "  ")] "  ").
  - reflexivity.
  - discriminate.
  - reflexivity.
Defined.

(** X2: whitespace around a delay does not matter: a request whose delay is
    [s] and a request whose delay is [s] stripped (when something is left)
    are handled by the same program, in each of the three services. *)
Theorem surrounding_whitespace_is_ignored
  (api_port : string) (request request' : query) (s : string) :
  get request "delay" = Some s -> get request' "delay" = Some (strip s) ->
  strip s <> "" ->
  Api.handle request = Api.handle request' /\
  App.index api_port request = App.index api_port request' /\
  Db.index api_port request = Db.index api_port request'.
Proof.
  intros H H' Hs'.
  assert (Hs : s <> "") by (intros ->; now apply Hs').
  rewrite !handle_eq, !app_index_eq, !db_index_eq, H, H'.
  rewrite (py_or_text s 1 Hs), (py_or_text (strip s) 1 Hs').
  cbn [py_float py_int]. rewrite float_literal_strip, int_literal_strip.
  repeat split.
Qed.

Lemma surrounding_whitespace_is_ignored_witness :
  Api.handle [("delay", " 3 ")] = Api.handle [("delay", "3")] /\
  App.index "8000" [("delay", " 3 ")] = App.index "8000" [("delay", "3")] /\
  Db.index "8000" [("delay", " 3 ")] = Db.index "8000" [("delay", "3")].
Proof.
  apply (surrounding_whitespace_is_ignored
           "8000" [("delay", " 3 ")] [("delay", "3")] " 3 ").
  - reflexivity.
  - reflexivity.
  - discriminate.
Defined.

Lemma round_decimal_int (neg : bool) (m : N) :
  round_decimal neg m 0 = binary_normalize prec emax (signed neg m) 0 neg.
Proof.
  destruct m as [|p]; [destruct neg; reflexivity|].
  unfold round_decimal. change (10 ^ 0)%Z with 1%Z. rewrite Z.mul_1_r.
  destruct neg; reflexivity.
Qed.

Lemma signed_abs (n : Z) : signed (n <? 0)%Z (Z.abs_N n) = n.
Proof. destruct n; reflexivity. Qed.

Lemma str_int_not_empty (n : Z) : str_int n <> "".
Proof.
  intros H. pose proof (int_literal_str_int n) as Hn.
  rewrite H in Hn. discriminate Hn.
Qed.

(** X3: every delay the integer cast of the API variant accepts is accepted
    by the float cast of the other two services, as the float nearest to the
    same integer: a request the API variant serves never makes the Delay
    Service or the Database variant raise [ValueError]. *)
Theorem int_accepted_is_float_accepted
  (api_port : string) (request : query) (n : Z) :
  py_int (py_or (get request "delay") 1) = Ok n ->
  exists neg : bool,
    py_float (py_or (get request "delay") 1) =
      Ok (binary_normalize prec emax n 0 neg) /\
    Api.handle request = handle_with (binary_normalize prec emax n 0 neg) /\
    Db.index api_port request =
      (conn <- psycopg2_connect "example" "example" "postgres" ;;
       db_index_with api_port conn (binary_normalize prec emax n 0 neg)).
Proof.
  intros Hn. rewrite handle_eq, db_index_eq.
  destruct (py_or (get request "delay") 1) as [s|z] eqn:Hv.
  - cbn [py_int] in Hn. destruct (int_literal s) as [[neg m]|] eqn:Hi; [|discriminate].
    injection Hn as <-. exists neg. cbn [py_float].
    rewrite (int_literal_float_literal s neg m Hi). cbn [float_of_lit].
    rewrite round_decimal_int. repeat split.
  - assert (z = 1%Z) as ->.
    { destruct (get request "delay") as [[|c s]|]; cbn [py_or] in Hv; congruence. }
    injection Hn as <-. exists false. repeat split.
Qed.

Lemma int_accepted_is_float_accepted_witness :
  exists neg : bool,
    py_float (py_or (get [("delay", "-1_0")] "delay") 1) =
      Ok (binary_normalize prec emax (-10) 0 neg) /\
    Api.handle [("delay", "-1_0")] =
      handle_with (binary_normalize prec emax (-10) 0 neg) /\
    Db.index "8000" [("delay", "-1_0")] =
      (conn <- psycopg2_connect "example" "example" "postgres" ;;
       db_index_with "8000" conn (binary_normalize prec emax (-10) 0 neg)).
Proof.
  apply (int_accepted_is_float_accepted "8000" [("delay", "-1_0")] (-10)).
  reflexivity.
Defined.

Lemma uint_chars (d : Decimal.uint) :
  all_chars is_digit_or_minus (NilEmpty.string_of_uint d) = true.
Proof. induction d; cbn [NilEmpty.string_of_uint all_chars]; [reflexivity|exact IHd..]. Qed.

Lemma str_int_chars (n : Z) : all_chars is_digit_or_minus (str_int n) = true.
Proof.
  destruct n as [|p|p]; [reflexivity|..];
    unfold str_int; cbn [Z.to_int NilZero.string_of_int];
    rewrite string_of_uint_nonnil by apply DecimalPos.Unsigned.to_uint_nonnil;
    [|cbn [all_chars]]; apply uint_chars.
Qed.

(** X4: whatever the request holds, the URL the API variant calls is the
    URL of the Delay Service followed by [?delay=] and the decimal text of an
    integer, digits with at most a leading minus sign: no text of the request
    is copied into the outbound URL. *)
Theorem forwarded_query_is_decimal_text
  (api_port : string) (request : query) (w : world) (url : string) :
  In (Get url) (calls (fst (run w (App.index api_port request)))) ->
  exists n : Z,
    py_int (py_or (get request "delay") 1) = Ok n /\
    url = App.api_url api_port ++ "?delay=" ++ str_int n /\
    all_chars is_digit_or_minus (str_int n) = true /\
    str_int n <> "".
Proof.
  rewrite app_index_eq.
  destruct (py_int (py_or (get request "delay") 1)) as [n|e]; run_step;
    [|intros []].
  intros Hin. exists n.
  assert (Hurl : url = App.api_url api_port ++ "?delay=" ++ str_int n).
  { destruct (w (Get (App.api_url api_port ++ "?delay=" ++ str_int n)));
      cbn in Hin; destruct Hin as [[= <-]|[]]; reflexivity. }
  repeat split; [exact Hurl|apply str_int_chars|apply str_int_not_empty].
Qed.

Lemma forwarded_query_is_decimal_text_witness :
  exists n : Z,
    py_int (py_or (get [("delay", " -007 "); ("x", "&y=1")] "delay") 1) = Ok n /\
    "http://slow_api:8000/?delay=-7" = App.api_url "8000" ++ "?delay=" ++ str_int n /\
    all_chars is_digit_or_minus (str_int n) = true /\
    str_int n <> "".
Proof.
  apply (forwarded_query_is_decimal_text
           "8000" [("delay", " -007 "); ("x", "&y=1")] lab "http://slow_api:8000/?delay=-7").
  vm_compute. left. reflexivity.
Defined.

(** X5: the two services compose: on the query value the API variant
    forwards for the integer [n], the decimal text of [n], the cast of the
    Delay Service never raises, and the Delay Service sleeps for the float
    nearest to [n]. *)
Theorem forwarded_delay_is_accepted_downstream (request : query) (n : Z) :
  get request "delay" = Some (str_int n) ->
  py_float (py_or (get request "delay") 1) =
    Ok (binary_normalize prec emax n 0 (n <? 0)%Z) /\
  Api.handle request = handle_with (binary_normalize prec emax n 0 (n <? 0)%Z).
Proof.
  intros H. rewrite handle_eq, H, (py_or_text _ 1 (str_int_not_empty n)).
  cbn [py_float].
  rewrite (int_literal_float_literal _ _ _ (int_literal_str_int n)).
  cbn [float_of_lit]. rewrite round_decimal_int, signed_abs. split; reflexivity.
Qed.

Lemma forwarded_delay_is_accepted_downstream_witness :
  py_float (py_or (get [("delay", str_int 3)] "delay") 1) =
    Ok (binary_normalize prec emax 3 0 (3 <? 0)%Z) /\
  Api.handle [("delay", str_int 3)] =
    handle_with (binary_normalize prec emax 3 0 (3 <? 0)%Z).
Proof.
  apply (forwarded_delay_is_accepted_downstream [("delay", str_int 3)] 3).
  reflexivity.
Defined.

(** * Further properties of the runs *)

(** The calls of a run follow the order of the program, and the run responds
    only when all of them have been made. *)
Lemma in_order_run {R : Type} (w : world) (ks : list kind) (p : prog R) :
  in_order ks p ->
  (exists n : nat, map kind_of (calls (fst (run w p))) = firstn n ks) /\
  (forall r : R, snd (run w p) = Responded r ->
                 map kind_of (calls (fst (run w p))) = ks).
Proof.
  induction 1 as [r|ks e|ks a k Hk IH].
  - split; [now exists O|reflexivity].
  - split; [now exists O|discriminate].
  - cbn [run]. destruct (w a) as [dt x|dt e|].
    + destruct (IH x) as [[n Hn] Hr]. destruct (run w (k x)) as [tr e].
      cbn [fst snd calls map call] in *. split.
      * exists (S n). cbn [firstn]. now rewrite Hn.
      * intros r Hresp. now rewrite (Hr r Hresp).
    + split; [now exists 1%nat|discriminate].
    + split; [now exists 1%nat|discriminate].
Qed.

(** How a run can end: with a value the program returns, with an exception
    the program raises by itself or one that a call of the run has thrown,
    or hung in a call that never comes back. *)
Lemma ends_with_run {R : Type} (PR : R -> Prop) (PE : exn -> Prop)
  (w : world) (p : prog R) :
  ends_with PR PE p ->
  match snd (run w p) with
  | Responded r => PR r
  | Unhandled e =>
      PE e \/
      exists (a : action) (dt : Q),
        In {| call := a; took := Some dt |} (fst (run w p)) /\ w a = Throws dt e
  | Hung =>
      exists a : action,
        In {| call := a; took := None |} (fst (run w p)) /\ w a = Hangs
  end.
Proof.
  induction 1 as [r Hr|e He|a k Hk IH]; cbn [run snd]; [exact Hr|now left|].
  destruct (w a) as [dt x|dt e|] eqn:Hw.
  - specialize (IH x). destruct (run w (k x)) as [tr [r|e|]]; cbn [fst snd] in *.
    + exact IH.
    + destruct IH as [He|(a' & dt' & Hin & Hw')]; [now left|].
      right. exists a', dt'. split; [now right|exact Hw'].
    + destruct IH as (a' & Hin & Hw'). exists a'. split; [now right|exact Hw'].
  - right. exists a, dt. split; [now left|exact Hw].
  - exists a. split; [now left|exact Hw].
Qed.

(** The casts of the handlers raise nothing but [ValueError]: the integer
    default never overflows a float. *)
Lemma float_cast_error (x : option string) (e : exn) :
  py_float (py_or x 1) = Err e -> e = ValueError.
Proof.
  destruct x as [[|c s]|]; cbn [py_or py_float]; try discriminate.
  destruct (float_literal (String c s)); congruence.
Qed.

Lemma int_cast_error (x : option string) (e : exn) :
  py_int (py_or x 1) = Err e -> e = ValueError.
Proof.
  destruct x as [[|c s]|]; cbn [py_or py_int]; try discriminate.
  destruct (int_literal (String c s)) as [[neg n]|]; congruence.
Qed.

Lemma db_index_in_order (api_port : string) (request : query) :
  in_order [KConnect; KGet; KCursor; KExecute; KFetchall] (Db.index api_port request).
Proof.
  rewrite db_index_eq.
  apply (in_order_call _ (Connect "example" "example" "postgres")).
  intros conn. cbn [bind].
  destruct (py_float (py_or (get request "delay") 1)) as [d|e];
    cbn [cast bind]; [|constructor].
  unfold db_index_with, requests_get, conn_cursor, cur_execute, cur_fetchall.
  cbn [bind].
  apply (in_order_call _ (Get _)). intros resp. cbn [bind].
  apply (in_order_call _ (Cursor _)). intros cur. cbn [bind].
  apply (in_order_call _ (Execute _ _ _)). intros u. cbn [bind].
  apply (in_order_call _ (Fetchall _)). intros fetched. cbn [bind].
  constructor.
Qed.

Lemma db_index_ends_with (api_port : string) (request : query) :
  ends_with (fun body => exists t, body = "Hi there! " ++ t)
            (fun e => e = ValueError)
            (Db.index api_port request).
Proof.
  rewrite db_index_eq.
  apply ends_with_call. intros conn. cbn [bind].
  destruct (py_float (py_or (get request "delay") 1)) as [d|e] eqn:Hd;
    cbn [cast bind].
  - repeat (apply ends_with_call; intros ?; cbn [bind]).
    apply ends_with_ret. eexists. reflexivity.
  - apply ends_with_raise. exact (float_cast_error _ e Hd).
Qed.

(** X6: whatever the request and whatever the libraries do, the calls of the
    Database variant are an initial segment of connect, GET, cursor, execute,
    fetchall, in this order.  It responds only after all five, with a body
    that starts with [Hi there! ]; an exception it ends with is the
    [ValueError] of its cast or one that a call it made has thrown; and it
    hangs only in a call that never returns. *)
Theorem db_index_protocol (api_port : string) (request : query) (w : world) :
  (exists n : nat,
      map kind_of (calls (fst (run w (Db.index api_port request)))) =
      firstn n [KConnect; KGet; KCursor; KExecute; KFetchall]) /\
  (forall body : string,
      snd (run w (Db.index api_port request)) = Responded body ->
      map kind_of (calls (fst (run w (Db.index api_port request)))) =
        [KConnect; KGet; KCursor; KExecute; KFetchall] /\
      exists t : string, body = "Hi there! " ++ t) /\
  (forall e : exn,
      snd (run w (Db.index api_port request)) = Unhandled e ->
      e = ValueError \/
      exists (a : action) (dt : Q),
        In {| call := a; took := Some dt |} (fst (run w (Db.index api_port request))) /\
        w a = Throws dt e) /\
  (snd (run w (Db.index api_port request)) = Hung ->
   exists a : action,
     In {| call := a; took := None |} (fst (run w (Db.index api_port request))) /\
     w a = Hangs).
Proof.
  destruct (in_order_run w _ _ (db_index_in_order api_port request)) as [Hn Hr].
  pose proof (ends_with_run _ _ w _ (db_index_ends_with api_port request)) as He.
  split; [exact Hn|]. split; [|split].
  - intros body H. split; [exact (Hr body H)|].
    rewrite H in He. exact He.
  - intros e H. rewrite H in He. exact He.
  - intros H. rewrite H in He. exact He.
Qed.

(** X7: whatever the request and whatever [requests.get] does, the API
    variant makes at most one call, the GET, and never a second one.  It
    responds only when the GET has returned, with [Hi there! ] and the text
    received, after exactly the time the GET took; when the GET raises, the
    handler ends with that exception; when the GET never returns, neither
    does the handler; and the only exception of its own is the [ValueError]
    of the cast, raised before any call. *)
Theorem app_index_behaviour (api_port : string) (request : query) (w : world) :
  (List.length (fst (run w (App.index api_port request))) <= 1)%nat /\
  match snd (run w (App.index api_port request)) with
  | Responded body =>
      exists (url : string) (dt : Q) (resp : response),
        fst (run w (App.index api_port request)) =
          [{| call := Get url; took := Some dt |}] /\
        w (Get url) = Returns dt resp /\
        body = "Hi there! " ++ text resp /\
        elapsed (fst (run w (App.index api_port request))) = Some (dt + 0)%Q
  | Unhandled e =>
      (e = ValueError /\ fst (run w (App.index api_port request)) = []) \/
      exists (url : string) (dt : Q),
        fst (run w (App.index api_port request)) =
          [{| call := Get url; took := Some dt |}] /\
        w (Get url) = Throws dt e
  | Hung =>
      exists url : string,
        fst (run w (App.index api_port request)) =
          [{| call := Get url; took := None |}] /\
        w (Get url) = Hangs
  end.
Proof.
  rewrite app_index_eq.
  destruct (py_int (py_or (get request "delay") 1)) as [n|e] eqn:Hn; run_step.
  - destruct (w (Get (App.api_url api_port ++ "?delay=" ++ str_int n)))
      as [dt resp|dt e|] eqn:Hw; run_step; cbn [List.length]; split; try lia.
    + exists (App.api_url api_port ++ "?delay=" ++ str_int n), dt, resp.
      repeat split. exact Hw.
    + right. exists (App.api_url api_port ++ "?delay=" ++ str_int n), dt.
      split; [reflexivity|exact Hw].
    + exists (App.api_url api_port ++ "?delay=" ++ str_int n).
      split; [reflexivity|exact Hw].
  - cbn [List.length]. split; [lia|]. left.
    split; [exact (int_cast_error _ e Hn)|reflexivity].
Qed.

(** X8: whatever the request and whatever the timer does, the Delay Service
    makes at most one call, [asyncio.sleep] with the delay it parsed.  Every
    response it gives is the same, status 200 with the body
    [slow api response], and it is given only when the sleep has returned;
    when the sleep raises or never returns, so does the handler; and the only
    exception of its own is the [ValueError] of the cast, raised before any
    call. *)
Theorem handle_behaviour (request : query) (w : world) :
  (List.length (fst (run w (Api.handle request))) <= 1)%nat /\
  match snd (run w (Api.handle request)) with
  | Responded resp =>
      resp = {| Api.status := 200; Api.body := "slow api response" |} /\
      exists (d : float) (dt : Q) (u : unit),
        py_float (py_or (get request "delay") 1) = Ok d /\
        fst (run w (Api.handle request)) = [{| call := Sleep d; took := Some dt |}] /\
        w (Sleep d) = Returns dt u
  | Unhandled e =>
      (e = ValueError /\ fst (run w (Api.handle request)) = []) \/
      exists (d : float) (dt : Q),
        fst (run w (Api.handle request)) = [{| call := Sleep d; took := Some dt |}] /\
        w (Sleep d) = Throws dt e
  | Hung =>
      exists d : float,
        fst (run w (Api.handle request)) = [{| call := Sleep d; took := None |}] /\
        w (Sleep d) = Hangs
  end.
Proof.
  rewrite handle_eq.
  destruct (py_float (py_or (get request "delay") 1)) as [d|e] eqn:Hd; run_step.
  - destruct (w (Sleep d)) as [dt u|dt e|] eqn:Hw; run_step; cbn [List.length];
      split; try lia.
    + split; [reflexivity|]. exists d, dt, u. repeat split. exact Hw.
    + right. exists d, dt. split; [reflexivity|exact Hw].
    + exists d. split; [reflexivity|exact Hw].
  - cbn [List.length]. split; [lia|]. left.
    split; [exact (float_cast_error _ e Hd)|reflexivity].
Qed.

(** * Halving the delay *)






(** X11: no handler bounds the delay.  When the float cast gives a zero, an
    infinity (written [inf], or a number too large for a float) or a NaN,
    the Delay Service sleeps on that value, and the Database variant, for
    which half of it is the value itself, runs [pg_sleep] on it and forwards
    it as text that the cast of the Delay Service reads back as the same
    float. *)
Theorem special_delay_is_forwarded_unchanged
  (api_port : string) (request : query) (d : float) :
  py_float (py_or (get request "delay") 1) = Ok d -> special d = true ->
  Api.handle request = handle_with d /\
  Db.index api_port request =
    (conn <- psycopg2_connect "example" "example" "postgres" ;;
     resp <- requests_get (Db.api_url api_port ++ "?delay=" ++ str_float d) ;;
     cur <- conn_cursor conn ;;
     _ <- cur_execute cur "SELECT pg_sleep(%s), NOW()" [d] ;;
     fetched <- cur_fetchall cur ;;
     Ret ("Hi there! " ++ text resp ++ " " ++ str_rows fetched)) /\
  py_float (PStr (str_float d)) = Ok d.
Proof.
  intros Hd Hs.
  assert (Hh : halve d = d) by (destruct d as [[]|[]| |]; [reflexivity..|discriminate Hs]).
  rewrite handle_eq, db_index_eq, Hd. cbn [cast bind]. unfold db_index_with.
  rewrite Hh. repeat split.
  destruct d as [[]|[]| |]; [reflexivity..|discriminate Hs].
Qed.

Lemma special_delay_is_forwarded_unchanged_witness :
  Api.handle [("delay", "1e999")] = handle_with (S754_infinity false) /\
  Db.index "8000" [("delay", "1e999")] =
    (conn <- psycopg2_connect "example" "example" "postgres" ;;
     resp <- requests_get
               (Db.api_url "8000" ++ "?delay=" ++ str_float (S754_infinity false)) ;;
     cur <- conn_cursor conn ;;
     _ <- cur_execute cur "SELECT pg_sleep(%s), NOW()" [S754_infinity false] ;;
     fetched <- cur_fetchall cur ;;
     Ret ("Hi there! " ++ text resp ++ " " ++ str_rows fetched)) /\
  py_float (PStr (str_float (S754_infinity false))) = Ok (S754_infinity false).
Proof.
  apply (special_delay_is_forwarded_unchanged
           "8000" [("delay", "1e999")] (S754_infinity false)).
  - vm_compute. reflexivity.
  - reflexivity.
Defined.

(** * Starting the Front Service *)

Lemma append_assoc (a b c : string) : (a ++ b) ++ c = a ++ b ++ c.
Proof. induction a as [|x a IH]; cbn [append]; [reflexivity|now rewrite IH]. Qed.

(** X10: the script [pywsgi.py] needs both [PORT_API] (read by the module
    [app] it imports) and [PORT_APP].  It fails with the [KeyError] of
    [PORT_API] when that variable is not set, whatever [PORT_APP] holds; with
    the [KeyError] of [PORT_APP] when only that one is missing; with
    [ValueError] when [PORT_APP] is not an integer literal; with
    [OverflowError] from [serve_forever] when the port is outside 0..65535;
    and with what binding raises when the operating system refuses the
    address.  Only otherwise does it serve: bound to [0.0.0.0] and that
    port, the view that forwards an accepted delay [n] to
    [http://slow_api:<PORT_API>/?delay=<n>]. *)
Theorem pywsgi_main_behaviour
  (environ : list (string * string)) (os_bind : string * Z -> option exn) :
  match Pywsgi.main environ os_bind with
  | Pywsgi.Started server =>
      exists (api_port port_app : string) (port : Z),
        get environ "PORT_API" = Some api_port /\
        get environ "PORT_APP" = Some port_app /\
        py_int (PStr port_app) = Ok port /\
        (0 <= port <= 65535)%Z /\
        os_bind ("0.0.0.0", port) = None /\
        Pywsgi.address server = ("0.0.0.0", port) /\
        forall (request : query) (n : Z),
          py_int (py_or (get request "delay") 1) = Ok n ->
          Pywsgi.application server request =
            (resp <- requests_get
                       ("http://slow_api:" ++ api_port ++ "/?delay=" ++ str_int n) ;;
             Ret ("Hi there! " ++ text resp))
  | Pywsgi.Failed (Pywsgi.KeyError key) =>
      (key = "PORT_API" /\ get environ "PORT_API" = None) \/
      (key = "PORT_APP" /\ get environ "PORT_API" <> None /\
       get environ "PORT_APP" = None)
  | Pywsgi.Failed (Pywsgi.CastError e) =>
      e = ValueError /\
      exists port_app : string,
        get environ "PORT_API" <> None /\
        get environ "PORT_APP" = Some port_app /\ int_literal port_app = None
  | Pywsgi.Failed (Pywsgi.ServeError e) =>
      exists (port_app : string) (port : Z),
        get environ "PORT_API" <> None /\
        get environ "PORT_APP" = Some port_app /\
        py_int (PStr port_app) = Ok port /\
        ((e = OverflowError /\ (port < 0 \/ 65535 < port)%Z) \/
         ((0 <= port <= 65535)%Z /\ os_bind ("0.0.0.0", port) = Some e))
  end.
Proof.
  unfold Pywsgi.main, Pywsgi.environ_item.
  destruct (get environ "PORT_API") as [api_port|] eqn:Hapi; [|now left].
  destruct (get environ "PORT_APP") as [port_app|] eqn:Happ;
    [|right; repeat split; congruence].
  destruct (py_int (PStr port_app)) as [port|e] eqn:Hport.
  - destruct (Pywsgi.port_in_range port) eqn:Hrange.
    + assert (Hp : (0 <= port <= 65535)%Z).
      { unfold Pywsgi.port_in_range in Hrange.
        apply andb_prop in Hrange as [H0 H1].
        apply Z.leb_le in H0. apply Z.leb_le in H1. lia. }
      destruct (os_bind ("0.0.0.0", port)) as [e|] eqn:Hbind.
      * exists port_app, port. split; [congruence|].
        split; [reflexivity|]. split; [exact Hport|].
        right. split; [exact Hp|exact Hbind].
      * exists api_port, port_app, port.
        do 2 (split; [reflexivity|]). split; [exact Hport|].
        split; [exact Hp|]. split; [exact Hbind|]. split; [reflexivity|].
        intros request k Hk. cbn [Pywsgi.application].
        rewrite app_index_eq, Hk. unfold app_index_with, App.api_url.
        cbn [cast bind]. now rewrite !append_assoc.
    + exists port_app, port. split; [congruence|].
      split; [reflexivity|]. split; [exact Hport|].
      left. split; [reflexivity|].
      unfold Pywsgi.port_in_range in Hrange.
      apply andb_false_iff in Hrange as [H|H]; apply Z.leb_gt in H; lia.
  - cbn [py_int] in Hport.
    destruct (int_literal port_app) as [[neg n]|] eqn:Hlit; [discriminate|].
    injection Hport as <-. split; [reflexivity|].
    exists port_app. repeat split; congruence.
Qed.
